(** * stan::prob Cauchy distribution: log density and cumulative distribution

    A shallow embedding of
    [src/stan/prob/distributions/univariate/continuous/cauchy.hpp].

    The C++ functions are templates over the numeric types of the variate,
    the location and the scale and over an error policy.  The embedding
    follows that shape:

    - the promoted numeric type is a type [T] carrying a [Scalar] instance
      (the operations the template body applies to its arguments);
    - the accumulator [lp], passed by address to every check, and the calls
      received by the policy are threaded by a small state-and-error monad;
    - the templates are instantiated at [double], the IEEE 754 binary64
      numbers with round-to-nearest arithmetic ([binary64]), which is what
      the program runs on;
    - they are also instantiated at the extended real line [xreal] (reals,
      the two infinities and NaN, arithmetic without rounding), the
      reference against which the closed formulas are read; a property
      stated there speaks of the rounded program only as far as rounding
      preserves it. *)

From Stdlib Require Import Reals Lra Lia String List Bool ZArith Floats.
Import ListNotations.

Set Implicit Arguments.

(** ** The numeric interface of the templates *)

(** What the bodies of [cauchy_log] and [cauchy_p] ask of the promoted
    type [promote_args<T_y,T_loc,T_scale>::type]: the literals [0.0] and
    [0.5], the constants [NEG_LOG_PI] (stan/prob/constants.hpp) and [pi()]
    (stan::math), the arithmetic of the formulas, and the three
    classifications used by the checks. *)
Class Scalar (T : Type) : Type := {
  lit_zero : T;
  lit_half : T;
  NEG_LOG_PI : T;
  pi : T;
  add : T -> T -> T;
  sub : T -> T -> T;
  div : T -> T -> T;
  log : T -> T;
  log1p : T -> T;
  square : T -> T;
  atan2 : T -> T -> T;
  isnan : T -> bool;
  isfinite : T -> bool;
  is_positive : T -> bool
}.

(** ** stan/prob/traits.hpp *)

(** The static type of an argument: a plain floating-point value, or a
    differentiable value taking part in automatic differentiation. *)
Inductive arg_type : Type := t_double | t_var.

(** Modelled from the spec: the header stan/prob/traits.hpp is not part of
    the sources at hand.  An argument is "active" when its type is not a
    constant one. *)
Definition is_constant (t : arg_type) : bool :=
  match t with
  | t_double => true
  | t_var => false
  end.

(** Modelled from the spec: [include_summand<propto, Ts...>::value] of
    stan/prob/traits.hpp.  A term is included unless the selective flag is
    on and none of the arguments it depends on is active. *)
Definition include_summand (propto : bool) (Ts : list arg_type) : bool :=
  negb propto || existsb (fun t => negb (is_constant t)) Ts.

(** ** stan/math/error_handling.hpp *)

(** The property of an argument that a check requires. *)
Inductive requirement : Type := NotNaN | Finite | Positive.

Section ErrorHandling.

Context {T : Type} `{Scalar T}.

(** A validation failure as handed to the policy: which property failed,
    in which function, on which value, under which label. *)
Record report : Type := Report {
  rp_requirement : requirement;
  rp_function : string;
  rp_value : T;
  rp_label : string
}.

(** What a policy decides: signal an error upward, or let the caller
    return early, possibly after writing a sentinel into the result
    slot. *)
Inductive verdict : Type :=
| Hard
| Soft (sentinel : option T).

(** Modelled from the spec: the error policy, an external collaborator
    that receives the function name, the offending value and the label. *)
Definition Policy : Type := string -> T -> string -> verdict.

(** The state of one evaluation: the accumulator [lp] whose address is
    given to the checks, and the reports the policy has received. *)
Record frame : Type := Frame {
  lp : T;
  reports : list report
}.

Inductive outcome (A : Type) : Type :=
| Normal (a : A) (s : frame)
| Signalled (log : list report).
Arguments Signalled {A} log.

Definition M (A : Type) : Type := frame -> outcome A.

Definition ret {A : Type} (a : A) : M A := fun s => Normal a s.

Definition bind {A B : Type} (m : M A) (k : A -> M B) : M B :=
  fun s =>
    match m s with
    | Normal a s' => k a s'
    | Signalled log => Signalled log
    end.

Definition get_lp : M T := fun s => Normal (lp s) s.

Definition update_lp (f : T -> T) : M unit :=
  fun s => Normal tt {| lp := f (lp s); reports := reports s |}.

Definition when (c : bool) (m : M unit) : M unit :=
  if c then m else ret tt.

(** Modelled from the spec: the failure path shared by the checks of
    stan/math/error_handling.hpp.  The policy is invoked; a hard failure
    propagates, a soft one may write the sentinel into the slot, and the
    check then answers [false]. *)
Definition raise_domain_error (r : requirement) (function : string)
    (x : T) (name : string) (P : Policy) : M bool :=
  fun s =>
    let log := reports s ++ [Report r function x name] in
    match P function x name with
    | Hard => Signalled log
    | Soft None => Normal false {| lp := lp s; reports := log |}
    | Soft (Some v) => Normal false {| lp := v; reports := log |}
    end.

(** Modelled from the spec: [check_not_nan] of
    stan/math/error_handling.hpp. *)
Definition check_not_nan (function : string) (y : T) (name : string)
    (P : Policy) : M bool :=
  if isnan y then raise_domain_error NotNaN function y name P
  else ret true.

(** Modelled from the spec: [check_finite] of
    stan/math/error_handling.hpp. *)
Definition check_finite (function : string) (x : T) (name : string)
    (P : Policy) : M bool :=
  if isfinite x then ret true
  else raise_domain_error Finite function x name P.

(** Modelled from the spec: [check_positive] of
    stan/math/error_handling.hpp. *)
Definition check_positive (function : string) (x : T) (name : string)
    (P : Policy) : M bool :=
  if is_positive x then ret true
  else raise_domain_error Positive function x name P.

(** What a caller of an evaluator observes: a returned value or a
    signalled error, and in both cases the reports given to the policy. *)
Inductive result : Type :=
| Returned (v : T) (log : list report)
| Failed (log : list report).

(** [typename promote_args<...>::type lp(0.0);] followed by the body. *)
Definition run (body : M T) : result :=
  match body {| lp := lit_zero; reports := [] |} with
  | Normal v s => Returned v (reports s)
  | Signalled log => Failed log
  end.

End ErrorHandling.

Arguments report T : clear implicits.
Arguments verdict T : clear implicits.
Arguments Policy T : clear implicits.
Arguments frame T : clear implicits.
Arguments result T : clear implicits.
Arguments Signalled {T A} log.
Arguments Hard {T}.
Arguments Failed {T} log.

Declare Scope eval_scope.
Delimit Scope eval_scope with eval.

Notation "m ;; k" := (bind m (fun _ => k))
  (at level 61, right associativity) : eval_scope.
(** [if (!check(...)) return lp;] *)
Notation "'UNLESS' c 'RETURN_LP' ;; k" :=
  (bind c (fun ok => if ok then k else get_lp))
  (at level 61, c at next level, right associativity) : eval_scope.

(** ** stan/prob/distributions/univariate/continuous/cauchy.hpp *)

Section Cauchy.

Context {T : Type} `{Scalar T}.

Open Scope string_scope.
Open Scope eval_scope.

Definition cauchy_log_function : string := "stan::prob::cauchy_log<%1%>(%1%)".
Definition cauchy_p_function : string := "stan::prob::cauchy_p<%1%>(%1%)".

(** [cauchy_log<propto, T_y, T_loc, T_scale, Policy>(y, mu, sigma, Policy)],
    for arguments that all have the promoted type [T] ([double] or [var]),
    so that [(y - mu) / sigma] on line 48 is computed in [T].  Arguments
    of type [int] are in [cauchy_log_int] below. *)
Definition cauchy_log (propto : bool) (T_y T_loc T_scale : arg_type)
    (y mu sigma : T) (P : Policy T) : result T :=
  let function := cauchy_log_function in
  run (
    UNLESS check_not_nan function y "Random variate, y," P RETURN_LP ;;
    UNLESS check_finite function mu "Location parameter, mu," P RETURN_LP ;;
    UNLESS check_finite function sigma "Scale parameter, sigma," P RETURN_LP ;;
    UNLESS check_positive function sigma "Scale parameter, sigma," P RETURN_LP ;;
    when (include_summand propto [])
      (update_lp (fun lp => add lp NEG_LOG_PI)) ;;
    when (include_summand propto [T_scale])
      (update_lp (fun lp => sub lp (log sigma))) ;;
    when (include_summand propto [T_y; T_loc; T_scale])
      (update_lp (fun lp => sub lp (log1p (square (div (sub y mu) sigma))))) ;;
    get_lp).

(** [cauchy_p<T_y, T_loc, T_scale, Policy>(y, mu, sigma, Policy)] *)
Definition cauchy_p (y mu sigma : T) (P : Policy T) : result T :=
  let function := cauchy_p_function in
  run (
    UNLESS check_not_nan function y "Random variate, y," P RETURN_LP ;;
    UNLESS check_finite function mu "Location parameter, mu," P RETURN_LP ;;
    UNLESS check_finite function sigma "Scale parameter, sigma," P RETURN_LP ;;
    UNLESS check_positive function sigma "Scale parameter, sigma," P RETURN_LP ;;
    ret (add (div (atan2 (sub y mu) sigma) pi) lit_half)).

(** The overloads take [stan::math::default_policy()], which
    stan/math/error_handling.hpp defines; it is a parameter here. *)
Variable default_policy : Policy T.

(** [cauchy_log<propto>(y, mu, sigma)] *)
Definition cauchy_log_propto (propto : bool) (T_y T_loc T_scale : arg_type)
    (y mu sigma : T) : result T :=
  cauchy_log propto T_y T_loc T_scale y mu sigma default_policy.

(** [cauchy_log(y, mu, sigma, Policy)] *)
Definition cauchy_log_policy (T_y T_loc T_scale : arg_type)
    (y mu sigma : T) (P : Policy T) : result T :=
  cauchy_log false T_y T_loc T_scale y mu sigma P.

(** [cauchy_log(y, mu, sigma)] *)
Definition cauchy_log_plain (T_y T_loc T_scale : arg_type)
    (y mu sigma : T) : result T :=
  cauchy_log false T_y T_loc T_scale y mu sigma default_policy.

(** [cauchy_p(y, mu, sigma)] *)
Definition cauchy_p_plain (y mu sigma : T) : result T :=
  cauchy_p y mu sigma default_policy.

End Cauchy.

(** ** The extended real line

    The reference type for the closed formulas: IEEE-style special values
    around exact real arithmetic.  Zero carries no sign, nothing rounds
    and nothing overflows, so this is not the arithmetic of [double]; that
    one is [binary64] below. *)

Inductive xreal : Type :=
| NaN
| PInf
| NInf
| Fin (r : R).

Module XReal.

Open Scope R_scope.

Definition xopp (a : xreal) : xreal :=
  match a with
  | NaN => NaN
  | PInf => NInf
  | NInf => PInf
  | Fin x => Fin (- x)
  end.

Definition xadd (a b : xreal) : xreal :=
  match a, b with
  | NaN, _ | _, NaN => NaN
  | PInf, NInf | NInf, PInf => NaN
  | PInf, _ | _, PInf => PInf
  | NInf, _ | _, NInf => NInf
  | Fin x, Fin y => Fin (x + y)
  end.

Definition xsub (a b : xreal) : xreal := xadd a (xopp b).

(** The product of an infinity of the given sign with [a]. *)
Definition xmul_inf (negative : bool) (a : xreal) : xreal :=
  match a with
  | NaN => NaN
  | PInf => if negative then NInf else PInf
  | NInf => if negative then PInf else NInf
  | Fin x =>
      if Rlt_dec 0 x then (if negative then NInf else PInf)
      else if Rlt_dec x 0 then (if negative then PInf else NInf)
      else NaN
  end.

Definition xmul (a b : xreal) : xreal :=
  match a, b with
  | NaN, _ | _, NaN => NaN
  | PInf, _ => xmul_inf false b
  | NInf, _ => xmul_inf true b
  | _, PInf => xmul_inf false a
  | _, NInf => xmul_inf true a
  | Fin x, Fin y => Fin (x * y)
  end.

Definition xdiv (a b : xreal) : xreal :=
  match a, b with
  | NaN, _ | _, NaN => NaN
  | (PInf | NInf), (PInf | NInf) => NaN
  | PInf, Fin y => if Rlt_dec y 0 then NInf else PInf
  | NInf, Fin y => if Rlt_dec y 0 then PInf else NInf
  | Fin _, (PInf | NInf) => Fin 0
  | Fin x, Fin y =>
      if Rlt_dec 0 y then Fin (x / y)
      else if Rlt_dec y 0 then Fin (x / y)
      else xmul_inf false a
  end.

Definition xlog (a : xreal) : xreal :=
  match a with
  | NaN | NInf => NaN
  | PInf => PInf
  | Fin x =>
      if Rlt_dec 0 x then Fin (ln x)
      else if Rlt_dec x 0 then NaN
      else NInf
  end.

(** [stan::math::log1p]: the logarithm of one plus the argument. *)
Definition xlog1p (a : xreal) : xreal :=
  match a with
  | NaN | NInf => NaN
  | PInf => PInf
  | Fin x =>
      if Rlt_dec (-1) x then Fin (ln (1 + x))
      else if Rlt_dec x (-1) then NaN
      else NInf
  end.

(** [stan::math::square]: the argument times itself. *)
Definition xsquare (a : xreal) : xreal := xmul a a.

(** The two-argument arctangent on the reals: the angle of the point
    with abscissa [x] and ordinate [y], in the interval from [-PI] to
    [PI]. *)
Definition Ratan2 (y x : R) : R :=
  if Rlt_dec 0 x then atan (y / x)
  else if Rlt_dec x 0 then
    (if Rlt_dec y 0 then atan (y / x) - PI else atan (y / x) + PI)
  else if Rlt_dec 0 y then PI / 2
  else if Rlt_dec y 0 then - (PI / 2)
  else 0.

(** [std::atan2], with the values the C standard gives at infinities. *)
Definition xatan2 (a b : xreal) : xreal :=
  match a, b with
  | NaN, _ | _, NaN => NaN
  | PInf, PInf => Fin (PI / 4)
  | PInf, NInf => Fin (3 * PI / 4)
  | NInf, PInf => Fin (- (PI / 4))
  | NInf, NInf => Fin (- (3 * PI / 4))
  | PInf, Fin _ => Fin (PI / 2)
  | NInf, Fin _ => Fin (- (PI / 2))
  | Fin _, PInf => Fin 0
  | Fin y, NInf => if Rlt_dec y 0 then Fin (- PI) else Fin PI
  | Fin y, Fin x => Fin (Ratan2 y x)
  end.

Definition xisnan (a : xreal) : bool :=
  match a with
  | NaN => true
  | _ => false
  end.

Definition xisfinite (a : xreal) : bool :=
  match a with
  | Fin _ => true
  | _ => false
  end.

(** [x > 0] *)
Definition xis_positive (a : xreal) : bool :=
  match a with
  | PInf => true
  | Fin x => if Rlt_dec 0 x then true else false
  | _ => false
  end.

End XReal.

#[export] Instance xreal_Scalar : Scalar xreal := {
  lit_zero := Fin 0;
  lit_half := Fin (1 / 2);
  NEG_LOG_PI := Fin (- ln PI);
  pi := Fin PI;
  add := XReal.xadd;
  sub := XReal.xsub;
  div := XReal.xdiv;
  log := XReal.xlog;
  log1p := XReal.xlog1p;
  square := XReal.xsquare;
  atan2 := XReal.xatan2;
  isnan := XReal.xisnan;
  isfinite := XReal.xisfinite;
  is_positive := XReal.xis_positive
}.

(** A policy that signals every failure, one that returns NaN as the
    sentinel, and one that leaves the slot untouched. *)
Definition throwing_policy {T : Type} : Policy T := fun _ _ _ => Hard.
Definition nan_policy : Policy xreal := fun _ _ _ => Soft (Some NaN).
Definition silent_policy {T : Type} : Policy T := fun _ _ _ => Soft None.


(** ** What the evaluators compute, for any numeric type *)

Section Pipeline.

Context {T : Type} `{Scalar T}.

Open Scope string_scope.

(** The validation pipeline as the specification words it: the four
    checks in their fixed order, the first failing one deciding. *)
Definition first_failure (function : string) (y mu sigma : T)
    : option (report T) :=
  if isnan y then
    Some (Report NotNaN function y "Random variate, y,")
  else if negb (isfinite mu) then
    Some (Report Finite function mu "Location parameter, mu,")
  else if negb (isfinite sigma) then
    Some (Report Finite function sigma "Scale parameter, sigma,")
  else if negb (is_positive sigma) then
    Some (Report Positive function sigma "Scale parameter, sigma,")
  else None.

(** The early return on a failed check: the policy sees the report once;
    the caller gets the error, the sentinel, or the untouched slot. *)
Definition early_return (P : Policy T) (r : report T) : result T :=
  match P (rp_function r) (rp_value r) (rp_label r) with
  | Hard => Failed [r]
  | Soft (Some v) => Returned v [r]
  | Soft None => Returned lit_zero [r]
  end.

(** The three terms of the log density and their selection, as the
    specification lists them. *)
Definition term_A (propto : bool) : bool :=
  negb propto.
Definition term_B (propto : bool) (T_scale : arg_type) : bool :=
  negb (propto && is_constant T_scale).
Definition term_C (propto : bool) (T_y T_loc T_scale : arg_type) : bool :=
  negb (propto && is_constant T_y && is_constant T_loc && is_constant T_scale).

Definition selected_terms (a b c : bool) (y mu sigma : T) : T :=
  let lp := lit_zero in
  let lp := if a then add lp NEG_LOG_PI else lp in
  let lp := if b then sub lp (log sigma) else lp in
  if c then sub lp (log1p (square (div (sub y mu) sigma))) else lp.

(** The closed form of the cumulative distribution. *)
Definition cdf_formula (y mu sigma : T) : T :=
  add (div (atan2 (sub y mu) sigma) pi) lit_half.

(** All four checks pass. *)
Definition valid (y mu sigma : T) : bool :=
  negb (isnan y) && isfinite mu && isfinite sigma && is_positive sigma.

End Pipeline.

(** Two numeric interfaces on one type that classify values alike and
    share the literal [0.0], whatever their arithmetic. *)
Definition same_checks {T : Type} (S1 S2 : Scalar T) : Prop :=
  @lit_zero T S1 = @lit_zero T S2 /\
  (forall x, @isnan T S1 x = @isnan T S2 x) /\
  (forall x, @isfinite T S1 x = @isfinite T S2 x) /\
  (forall x, @is_positive T S1 x = @is_positive T S2 x).

(** ** Observations on a result *)

(** The reports the policy received during an evaluation. *)
Definition reports_of {T : Type} (r : result T) : list (report T) :=
  match r with
  | Returned _ log => log
  | Failed log => log
  end.

(** Whether the evaluation ended with an error signalled upward. *)
Definition signalled {T : Type} (r : result T) : bool :=
  match r with
  | Returned _ _ => false
  | Failed _ => true
  end.

(** The value handed back to the caller, when there is one. *)
Definition value_of {T : Type} (r : result T) : option T :=
  match r with
  | Returned v _ => Some v
  | Failed _ => None
  end.

(** A report without the name of the reporting function. *)
Definition complaint {T : Type} (r : report T)
    : requirement * T * string :=
  (rp_requirement r, rp_value r, rp_label r).

(** The accepted arguments on the extended reals, spelled out. *)
Definition accepted (y mu sigma : xreal) : Prop :=
  y <> NaN /\
  exists m s : R, mu = Fin m /\ sigma = Fin s /\ (0 < s)%R.

(** ** IEEE 754 binary64, the arithmetic of [double]

    The templates instantiated at [double].  Sums, differences, products
    and quotients are the primitive binary64 operations (round to nearest,
    ties to even).  The library functions [std::log], [log1p] and
    [std::atan2] are the platform's: they are the fields of a [libm],
    except at the special values fixed by Annex F of the C standard. *)

Record libm : Type := Libm {
  libm_log : float -> float;
  libm_log1p : float -> float;
  libm_atan2 : float -> float -> float
}.

Module Binary64.

Open Scope float_scope.

(** Modelled from the spec: [stan::math::pi()], the double nearest to pi;
    and its half, which [std::atan2] returns at an infinite first
    argument. *)
Definition pi64 : float := 0x1.921fb54442d18p+1.
Definition half_pi64 : float := 0x1.921fb54442d18p+0.

(** Modelled from the spec: [NEG_LOG_PI] of stan/prob/constants.hpp, the
    double [-1.1447298858494002]. *)
Definition neg_log_pi64 : float := -0x1.250d048e7a1bdp+0.

(** [std::log]: [log(1)] is [+0]. *)
Definition log64 (m : libm) (x : float) : float :=
  if x =? 1 then 0 else libm_log m x.

(** [log1p]: a zero is returned as it is, [log1p(+inf)] is [+inf]. *)
Definition log1p64 (m : libm) (x : float) : float :=
  if x =? 0 then x
  else if x =? infinity then infinity
  else libm_log1p m x.

(** [std::atan2]: NaN for a NaN argument, a zero [y] is returned as it is
    when [x > 0], and an infinite [y] gives plus or minus [pi/2] when [x]
    is finite. *)
Definition atan2_64 (m : libm) (y x : float) : float :=
  if is_nan y || is_nan x then nan
  else if (y =? 0) && (0 <? x) then y
  else if (y =? infinity) && is_finite x then half_pi64
  else if (y =? neg_infinity) && is_finite x then - half_pi64
  else libm_atan2 m y x.

(** The real number a finite double stands for; 0 for the others. *)
Definition real_of_float (x : float) : R :=
  match Prim2SF x with
  | S754_finite s m e =>
      ((if s then -1 else 1) * IZR (Zpos m) * powerRZ 2 e)%R
  | _ => 0%R
  end.

End Binary64.

(** The finite doubles: the zeros and the numbers with a mantissa. *)
Inductive float_shape : spec_float -> Prop :=
| shape_zero (s : bool) : float_shape (S754_zero s)
| shape_finite (s : bool) (m : positive) (e : Z) :
    float_shape (S754_finite s m e).

(** The operations of the templates at [double].  Modelled from the
    spec: [square(x)], of stan::math, is the product [x * x]; the checks
    classify a double with [isnan], with [isfinite] and with [0 < x]. *)
Definition binary64 (m : libm) : Scalar float := {|
  lit_zero := 0%float;
  lit_half := 0.5%float;
  NEG_LOG_PI := Binary64.neg_log_pi64;
  pi := Binary64.pi64;
  add := PrimFloat.add;
  sub := PrimFloat.sub;
  div := PrimFloat.div;
  log := Binary64.log64 m;
  log1p := Binary64.log1p64 m;
  square := fun x => PrimFloat.mul x x;
  atan2 := Binary64.atan2_64 m;
  isnan := PrimFloat.is_nan;
  isfinite := PrimFloat.is_finite;
  is_positive := fun x => PrimFloat.ltb 0%float x
|}.

(** ** Integer arguments

    [cauchy_log<false, int, int, int, Policy>]: the three arguments are
    C++ ints and keep that type until they meet a value of the promoted
    type. *)

Class FromInt (T : Type) : Type := {
  of_int : Z -> T
}.

(** The values of a 32-bit [int]. *)
Definition in_int (z : Z) : bool :=
  ((-2147483648 <=? z) && (z <=? 2147483647))%Z.

(** [square((y - mu) / sigma)] on ints: the difference, the quotient
    (truncated toward zero) and the product are int operations.  [None]
    where C++ leaves the result undefined: a zero divisor, or a
    difference or product outside the ints. *)
Definition int_standardised_square (y mu sigma : Z) : option Z :=
  if (sigma =? 0)%Z then None
  else if in_int (y - mu) then
    let q := Z.quot (y - mu) sigma in
    if in_int (q * q) then Some (q * q)%Z else None
  else None.

Section CauchyInt.

Context {T : Type} `{Scalar T} `{FromInt T}.

Open Scope string_scope.
Open Scope eval_scope.

(** [cauchy_log<false>(y, mu, sigma, Policy)] with int arguments.  The
    checks, [log(sigma)] and [log1p] see the arguments converted to the
    promoted type; line 48 computes [square((y - mu) / sigma)] on the
    ints first. *)
Definition cauchy_log_int (y mu sigma : Z) (P : Policy T)
    : option (result T) :=
  let function := cauchy_log_function in
  let evaluation (standardised_square : T) :=
    run (
      UNLESS check_not_nan function (of_int y) "Random variate, y," P
        RETURN_LP ;;
      UNLESS check_finite function (of_int mu) "Location parameter, mu," P
        RETURN_LP ;;
      UNLESS check_finite function (of_int sigma) "Scale parameter, sigma," P
        RETURN_LP ;;
      UNLESS check_positive function (of_int sigma) "Scale parameter, sigma," P
        RETURN_LP ;;
      update_lp (fun lp => add lp NEG_LOG_PI) ;;
      update_lp (fun lp => sub lp (log (of_int sigma))) ;;
      update_lp (fun lp => sub lp (log1p standardised_square)) ;;
      get_lp) in
  if valid (of_int y) (of_int mu) (of_int sigma) then
    match int_standardised_square y mu sigma with
    | Some s => Some (evaluation (of_int s))
    | None => None
    end
  else Some (evaluation lit_zero).

End CauchyInt.

(** The conversion of an int to [double] is exact. *)
#[export] Instance binary64_FromInt : FromInt float := {
  of_int := fun z => SF2Prim (binary_normalize prec emax z 0%Z false)
}.

(** ** Certificates for the numerical value of [log(pi)]

    A lower bound on [exp x] is [(1 + x / 2^n)^(2^n)], reached from
    [1 + x / 2^n] by [n] squarings; each list below holds the successive
    squares, rounded down to 18 decimals. *)

Fixpoint squares_below (a : R) (l : list R) : Prop :=
  match l with
  | [] => True
  | b :: l' => (0 <= b /\ b <= a * a /\ squares_below b l')%R
  end.

Fixpoint chain_end (a : R) (l : list R) : R :=
  match l with
  | [] => a
  | b :: l' => chain_end b l'
  end.

(** Squarings from [1 + 1.1447299858494002 / 2^25]. *)
Definition exp_upper_chain : list R :=
  [ 1.000000068231225334;
    1.000000136462455323;
    1.000000272924929268;
    1.000000545849933024;
    1.000001091700164000;
    1.000002183401519809;
    1.000004366807806860;
    1.000008733634682730;
    1.000017467345641834;
    1.000034934996391831;
    1.000069871213237634;
    1.000139747308461707;
    1.000279514146233636;
    1.000559106420625216;
    1.001118525441240016;
    1.002238301981642733;
    1.004481613959046491;
    1.008983312781770902;
    1.018047325472076932;
    1.036420356900848940;
    1.074167156198483095;
    1.153835079455536379;
    1.331335390582163948;
    1.772453922216563033;
    3.141592906380878078 ]%R.

(** Squarings from [1 - 1.1447297858494002 / 2^25]. *)
Definition exp_lower_chain : list R :=
  [ 0.999999931768788914;
    0.999999863537582483;
    0.999999727075183587;
    0.999999454150441661;
    0.999998908301181273;
    0.999997816603554352;
    0.999995633211875924;
    0.999991266442820686;
    0.999982532961916393;
    0.999965066228930205;
    0.999930133678228771;
    0.999860272237760459;
    0.999720563999368458;
    0.999441206083215364;
    0.998882724417072163;
    0.997766697138872532;
    0.995538381919414584;
    0.991096669874726174;
    0.982272609036771956;
    0.964859478463907051;
    0.930953813181642714;
    0.866675002277440923;
    0.751125559572602229;
    0.564189606243254820;
    0.318309911792918918 ]%R.

(** * Properties *)

Unset Implicit Arguments.

Section PipelineFacts.

Context {T : Type} `{Scalar T}.

Lemma include_summand_A propto :
  include_summand propto [] = term_A propto.
Proof. unfold include_summand, term_A. simpl. apply orb_false_r. Qed.

Lemma include_summand_B propto T_scale :
  include_summand propto [T_scale] = term_B propto T_scale.
Proof. destruct propto, T_scale; reflexivity. Qed.

Lemma include_summand_C propto T_y T_loc T_scale :
  include_summand propto [T_y; T_loc; T_scale]
  = term_C propto T_y T_loc T_scale.
Proof. destruct propto, T_y, T_loc, T_scale; reflexivity. Qed.

(** Unfolds an evaluator and decides the four checks by cases. *)
Ltac run_checks y mu sigma :=
  unfold first_failure, early_return, run, bind, check_not_nan,
    check_finite, check_positive, raise_domain_error, get_lp, ret;
  destruct (isnan y); simpl;
  [ | destruct (isfinite mu); simpl;
      [ destruct (isfinite sigma); simpl;
        [ destruct (is_positive sigma); simpl | ] | ] ].

Lemma cauchy_log_pipeline propto T_y T_loc T_scale y mu sigma P :
  cauchy_log propto T_y T_loc T_scale y mu sigma P =
  match first_failure cauchy_log_function y mu sigma with
  | Some r => early_return P r
  | None =>
      Returned (selected_terms (term_A propto) (term_B propto T_scale)
                  (term_C propto T_y T_loc T_scale) y mu sigma) []
  end.
Proof.
  unfold cauchy_log.
  rewrite include_summand_A, include_summand_B, include_summand_C.
  run_checks y mu sigma;
    try (destruct (P _ _ _) as [ | [ v | ] ]; reflexivity).
  unfold selected_terms, when, update_lp.
  destruct (term_A propto), (term_B propto T_scale),
    (term_C propto T_y T_loc T_scale); reflexivity.
Qed.

Lemma cauchy_p_pipeline y mu sigma P :
  cauchy_p y mu sigma P =
  match first_failure cauchy_p_function y mu sigma with
  | Some r => early_return P r
  | None => Returned (cdf_formula y mu sigma) []
  end.
Proof.
  unfold cauchy_p.
  run_checks y mu sigma;
    try (destruct (P _ _ _) as [ | [ v | ] ]; reflexivity).
  reflexivity.
Qed.

End PipelineFacts.

Lemma first_failure_valid {T : Type} {S : Scalar T}
    (function : string) (y mu sigma : T) :
  valid y mu sigma = true -> first_failure function y mu sigma = None.
Proof.
  unfold valid, first_failure.
  destruct (isnan y), (isfinite mu), (isfinite sigma), (is_positive sigma);
    simpl; intros Hv; (discriminate || reflexivity).
Qed.

Lemma first_failure_invalid {T : Type} {S : Scalar T}
    (function : string) (y mu sigma : T) :
  valid y mu sigma = false ->
  exists r : report T,
    first_failure function y mu sigma = Some r
    /\ rp_function r = function.
Proof.
  unfold valid, first_failure.
  destruct (isnan y), (isfinite mu), (isfinite sigma), (is_positive sigma);
    simpl; intros Hv; try discriminate; eexists; split; reflexivity.
Qed.

Lemma first_failure_same_checks {T : Type} (S1 S2 : Scalar T)
    (function : string) (y mu sigma : T) :
  same_checks S1 S2 ->
  @first_failure T S1 function y mu sigma
  = @first_failure T S2 function y mu sigma.
Proof.
  intros (_ & Hnan & Hfin & Hpos). unfold first_failure.
  rewrite Hnan, !Hfin, Hpos. reflexivity.
Qed.

Lemma early_return_same_checks {T : Type} (S1 S2 : Scalar T)
    (P : Policy T) (r : report T) :
  same_checks S1 S2 ->
  @early_return T S1 P r = @early_return T S2 P r.
Proof.
  intros (Hzero & _). unfold early_return. rewrite Hzero. reflexivity.
Qed.

(** ** Finite arguments with a positive scale, on the extended reals *)

Section FiniteArguments.

Open Scope R_scope.

Variables (y mu sigma : R).
Hypothesis sigma_pos : 0 < sigma.

Lemma finite_valid (function : string) :
  first_failure function (Fin y) (Fin mu) (Fin sigma) = None.
Proof.
  unfold first_failure; simpl.
  destruct (Rlt_dec 0 sigma); [ reflexivity | contradiction ].
Qed.

Lemma Ratan2_pos (a : R) : XReal.Ratan2 a sigma = atan (a / sigma).
Proof.
  unfold XReal.Ratan2.
  destruct (Rlt_dec 0 sigma); [ reflexivity | contradiction ].
Qed.

Lemma log_sigma : log (Fin sigma) = Fin (ln sigma).
Proof.
  simpl. destruct (Rlt_dec 0 sigma); [ reflexivity | contradiction ].
Qed.

Lemma term_C_value :
  log1p (square (div (sub (Fin y) (Fin mu)) (Fin sigma)))
  = Fin (ln (1 + ((y - mu) / sigma) ^ 2)).
Proof.
  simpl. destruct (Rlt_dec 0 sigma); [ | contradiction ].
  simpl. destruct (Rlt_dec _ _) as [ _ | Hneg ].
  - do 2 f_equal. unfold Rminus. ring.
  - exfalso. apply Hneg.
    pose proof (Rle_0_sqr ((y + - mu) / sigma)) as Hsq.
    unfold Rsqr in Hsq. lra.
Qed.

Lemma cdf_formula_finite :
  cdf_formula (Fin y) (Fin mu) (Fin sigma)
  = Fin (atan ((y - mu) / sigma) / PI + 1 / 2).
Proof.
  unfold cdf_formula. simpl. rewrite Ratan2_pos.
  destruct (Rlt_dec 0 PI) as [ _ | Hpi ];
    [ reflexivity | exfalso; apply Hpi, PI_RGT_0 ].
Qed.

Lemma cauchy_p_finite (P : Policy xreal) :
  cauchy_p (Fin y) (Fin mu) (Fin sigma) P
  = Returned (Fin (atan ((y - mu) / sigma) / PI + 1 / 2)) [].
Proof.
  rewrite cauchy_p_pipeline, finite_valid, cdf_formula_finite. reflexivity.
Qed.

Lemma selected_terms_finite (a b c : bool) :
  selected_terms a b c (Fin y) (Fin mu) (Fin sigma)
  = Fin ((if a then - ln PI else 0)
         - (if b then ln sigma else 0)
         - (if c then ln (1 + ((y - mu) / sigma) ^ 2) else 0)).
Proof.
  unfold selected_terms. rewrite log_sigma, term_C_value.
  destruct a, b, c; simpl; f_equal; ring.
Qed.

End FiniteArguments.

Lemma cdf_in_unit_interval (x : R) : (0 < atan x / PI + 1 / 2 < 1)%R.
Proof.
  pose proof PI_RGT_0 as Hpi.
  destruct (atan_bound x) as [ Hlo Hhi ].
  assert (Hq : (- (1 / 2) < atan x / PI < 1 / 2)%R).
  { split.
    - apply Rmult_lt_reg_r with PI; [ exact Hpi | ].
      unfold Rdiv at 2. rewrite Rmult_assoc, Rinv_l by lra. lra.
    - apply Rmult_lt_reg_r with PI; [ exact Hpi | ].
      unfold Rdiv at 1. rewrite Rmult_assoc, Rinv_l by lra. lra. }
  lra.
Qed.

Open Scope R_scope.

(** ** Enclosures of [pi] and of [log(pi)] *)

Lemma exp_chain (l : list R) : forall a t : R,
  0 <= a -> a <= exp t -> squares_below a l ->
  chain_end a l <= exp (2 ^ length l * t).
Proof.
  induction l as [ | b l IH ]; intros a t Ha Hexp Hl; simpl.
  - replace (1 * t) with t by ring. exact Hexp.
  - destruct Hl as (Hb & Hsq & Hl).
    replace (2 * 2 ^ length l * t) with (2 ^ length l * (t + t)) by ring.
    apply IH; [ exact Hb | | exact Hl ].
    rewrite exp_plus.
    apply Rle_trans with (a * a); [ exact Hsq | ].
    apply Rmult_le_compat; assumption.
Qed.

Lemma exp_grows (x : R) (l : list R) :
  0 <= 1 + x / 2 ^ length l ->
  squares_below (1 + x / 2 ^ length l) l ->
  chain_end (1 + x / 2 ^ length l) l <= exp x.
Proof.
  intros Hpos Hl.
  pose proof (exp_chain l _ (x / 2 ^ length l) Hpos (exp_ineq1_le _) Hl) as H.
  replace (2 ^ length l * (x / 2 ^ length l)) with x in H
    by (field; apply pow_nonzero; lra).
  exact H.
Qed.

Lemma PI_enclosure : 3.14159265 < PI < 3.14159266.
Proof.
  pose proof (PI_2_3_7_ineq 4) as H.
  unfold sum_f_R0, tg_alt, PI_2_3_7_tg, Ratan_seq in H.
  simpl in H.
  split; lra.
Qed.

Lemma exp_above : 3.14159266 <= exp 1.1447299858494002.
Proof.
  apply Rle_trans with (2 := exp_grows 1.1447299858494002 exp_upper_chain
    ltac:(simpl; lra) ltac:(simpl; repeat (split; [ lra | ]); exact I)).
  simpl. lra.
Qed.

Lemma exp_below : exp 1.1447297858494002 <= 3.14159265.
Proof.
  pose proof (exp_grows (Ropp 1.1447297858494002) exp_lower_chain
    ltac:(simpl; lra) ltac:(simpl; repeat (split; [ lra | ]); exact I)) as H.
  simpl chain_end in H.
  rewrite exp_Ropp in H.
  pose proof (exp_pos 1.1447297858494002) as Hpos.
  apply Rmult_le_reg_r with (/ exp 1.1447297858494002).
  - apply Rinv_0_lt_compat, Hpos.
  - rewrite Rinv_r by lra. lra.
Qed.

Lemma log_pi_enclosure :
  1.1447297858494002 < ln PI < 1.1447299858494002.
Proof.
  destruct PI_enclosure as [ Hlo Hhi ].
  pose proof exp_above as Ha. pose proof exp_below as Hb.
  assert (Hpi : 0 < PI) by lra.
  split; apply exp_lt_inv; rewrite exp_ln by exact Hpi; lra.
Qed.

(** ** The log density and the distribution function at finite arguments *)

(** C2. When all checks pass, the distribution function returns
    [atan2(y - mu, sigma) / pi() + 0.5] in the arithmetic of the promoted
    type and calls no policy.  On the extended reals, for finite [y],
    finite [mu] and finite [sigma > 0], this is the real number
    [atan2(y - mu, sigma) / pi + 1/2]; at [y = mu] it is [1/2]; at
    [(1, 0, 1)] it is [3/4]. *)
Theorem C2_cdf_formula :
  (forall (T : Type) (S : Scalar T) (y mu sigma : T) (P : Policy T),
     valid y mu sigma = true ->
     cauchy_p y mu sigma P
     = Returned (add (div (atan2 (sub y mu) sigma) pi) lit_half) [])
  /\ (forall (P : Policy xreal) (y mu sigma : R),
        0 < sigma ->
        cauchy_p (Fin y) (Fin mu) (Fin sigma) P
        = Returned (Fin (XReal.Ratan2 (y - mu) sigma / PI + 1 / 2)) []
        /\ cauchy_p (Fin mu) (Fin mu) (Fin sigma) P
           = Returned (Fin (1 / 2)) []
        /\ cauchy_p (Fin 1) (Fin 0) (Fin 1) P = Returned (Fin (3 / 4)) []).
Proof.
  split.
  - intros T S y mu sigma P Hv.
    rewrite cauchy_p_pipeline, first_failure_valid by exact Hv.
    reflexivity.
  - intros P y mu sigma Hs. pose proof PI_RGT_0 as Hpi.
    split; [ | split ].
    + rewrite cauchy_p_finite, Ratan2_pos by exact Hs. reflexivity.
    + rewrite cauchy_p_finite by exact Hs.
      replace ((mu - mu) / sigma) with 0 by (field; lra).
      rewrite atan_0. do 2 f_equal. field. lra.
    + rewrite cauchy_p_finite by lra.
      replace ((1 - 0) / 1) with 1 by field.
      rewrite atan_1. do 2 f_equal. field. lra.
Qed.

Lemma C2_cdf_formula_witness :
  0 < 2 /\
  cauchy_p (Fin 2) (Fin 2) (Fin 2) throwing_policy
  = Returned (Fin (1 / 2)) [].
Proof.
  assert (Hpos : 0 < 2) by lra.
  split; [ exact Hpos | ].
  exact (proj1 (proj2 (proj2 C2_cdf_formula throwing_policy 0 2 2 Hpos))).
Defined.

(** ** An infinite variate *)

(** C10. An infinite variate is accepted: with [y] one of the two
    infinities, a finite location and a finite scale [sigma > 0] no check
    fails in either evaluator; the distribution function returns exactly
    1 at plus infinity and exactly 0 at minus infinity, and the full log
    density returns minus infinity. *)
Theorem C10_infinite_variate_accepted
    (propto : bool) (T_y T_loc T_scale : arg_type) (P : Policy xreal)
    (mu sigma : R) :
  0 < sigma ->
  (forall function : string,
     first_failure function PInf (Fin mu) (Fin sigma) = None
     /\ first_failure function NInf (Fin mu) (Fin sigma) = None)
  /\ cauchy_p PInf (Fin mu) (Fin sigma) P = Returned (Fin 1) []
  /\ cauchy_p NInf (Fin mu) (Fin sigma) P = Returned (Fin 0) []
  /\ (exists v, cauchy_log propto T_y T_loc T_scale PInf (Fin mu) (Fin sigma) P
                = Returned v [])
  /\ (exists v, cauchy_log propto T_y T_loc T_scale NInf (Fin mu) (Fin sigma) P
                = Returned v [])
  /\ cauchy_log false T_y T_loc T_scale PInf (Fin mu) (Fin sigma) P
     = Returned NInf []
  /\ cauchy_log false T_y T_loc T_scale NInf (Fin mu) (Fin sigma) P
     = Returned NInf [].
Proof.
  intros Hs. pose proof PI_RGT_0 as Hpi.
  assert (Hvalid : forall function : string,
    first_failure function PInf (Fin mu) (Fin sigma) = None
    /\ first_failure function NInf (Fin mu) (Fin sigma) = None).
  { intros function. unfold first_failure; simpl.
    destruct (Rlt_dec 0 sigma); [ split; reflexivity | contradiction ]. }
  split; [ exact Hvalid | ].
  split; [ | split ].
  - rewrite cauchy_p_pipeline, (proj1 (Hvalid _)).
    unfold cdf_formula; simpl.
    destruct (Rlt_dec 0 PI); [ | contradiction ].
    simpl. do 2 f_equal. field. lra.
  - rewrite cauchy_p_pipeline, (proj2 (Hvalid _)).
    unfold cdf_formula; simpl.
    destruct (Rlt_dec 0 PI); [ | contradiction ].
    simpl. do 2 f_equal. field. lra.
  - split; [ | split; [ | split ] ].
    + rewrite cauchy_log_pipeline, (proj1 (Hvalid _)). eexists; reflexivity.
    + rewrite cauchy_log_pipeline, (proj2 (Hvalid _)). eexists; reflexivity.
    + rewrite cauchy_log_pipeline, (proj1 (Hvalid _)).
      unfold selected_terms; simpl.
      destruct (Rlt_dec sigma 0); [ lra | ].
      destruct (Rlt_dec 0 sigma); [ reflexivity | contradiction ].
    + rewrite cauchy_log_pipeline, (proj2 (Hvalid _)).
      unfold selected_terms; simpl.
      destruct (Rlt_dec sigma 0); [ lra | ].
      destruct (Rlt_dec 0 sigma); [ reflexivity | contradiction ].
Qed.

Lemma C10_infinite_variate_accepted_witness :
  0 < 1 /\
  cauchy_p PInf (Fin 0) (Fin 1) throwing_policy = Returned (Fin 1) [] /\
  cauchy_p NInf (Fin 0) (Fin 1) throwing_policy = Returned (Fin 0) [].
Proof.
  split; [ lra | ].
  assert (Hpos : 0 < 1) by lra.
  destruct (C10_infinite_variate_accepted false t_double t_double t_double
              throwing_policy 0 1 Hpos) as (_ & Hplus & Hminus & _).
  split; [ exact Hplus | exact Hminus ].
Defined.

(** ** Validation, for any numeric type *)

Close Scope R_scope.

Open Scope string_scope.

(** C3. In both evaluators the checks run in the order variate not NaN,
    location finite, scale finite, scale positive.  The first failing
    check ends the evaluation: the policy receives that one report and the
    evaluator returns at once (the error, the sentinel, or the untouched
    slot).  When a check fails, the outcome is the same under every
    arithmetic, so no operation of the formula contributes to it.  On the
    extended reals, with finite [y] and [mu], a scale [sigma <= 0] fails
    the positivity check and a NaN scale fails the finiteness check. *)
Theorem C3_checks_in_fixed_order :
  (forall (T : Type) (S : Scalar T) (propto : bool)
          (T_y T_loc T_scale : arg_type) (y mu sigma : T) (P : Policy T),
     let density := cauchy_log propto T_y T_loc T_scale y mu sigma P in
     let cdf := cauchy_p y mu sigma P in
     let stopped_by (req : requirement) (x : T) (label : string) :=
       density = early_return P (Report req cauchy_log_function x label)
       /\ cdf = early_return P (Report req cauchy_p_function x label) in
     (isnan y = true -> stopped_by NotNaN y "Random variate, y,")
     /\ (isnan y = false -> isfinite mu = false ->
         stopped_by Finite mu "Location parameter, mu,")
     /\ (isnan y = false -> isfinite mu = true -> isfinite sigma = false ->
         stopped_by Finite sigma "Scale parameter, sigma,")
     /\ (isnan y = false -> isfinite mu = true -> isfinite sigma = true ->
         is_positive sigma = false ->
         stopped_by Positive sigma "Scale parameter, sigma,")
     /\ (valid y mu sigma = false ->
         forall S' : Scalar T, same_checks S S' ->
           density = @cauchy_log T S' propto T_y T_loc T_scale y mu sigma P
           /\ cdf = @cauchy_p T S' y mu sigma P))
  /\ (forall (propto : bool) (T_y T_loc T_scale : arg_type)
             (P : Policy xreal) (y mu s : R),
        (s <= 0)%R ->
        cauchy_log propto T_y T_loc T_scale (Fin y) (Fin mu) (Fin s) P
        = early_return P (Report Positive cauchy_log_function (Fin s)
                            "Scale parameter, sigma,")
        /\ cauchy_p (Fin y) (Fin mu) (Fin s) P
        = early_return P (Report Positive cauchy_p_function (Fin s)
                            "Scale parameter, sigma,"))
  /\ (forall (propto : bool) (T_y T_loc T_scale : arg_type)
             (P : Policy xreal) (y mu : R),
        cauchy_log propto T_y T_loc T_scale (Fin y) (Fin mu) NaN P
        = early_return P (Report Finite cauchy_log_function NaN
                            "Scale parameter, sigma,")
        /\ cauchy_p (Fin y) (Fin mu) NaN P
        = early_return P (Report Finite cauchy_p_function NaN
                            "Scale parameter, sigma,")).
Proof.
  assert (Hgen : forall (T : Type) (S : Scalar T) (propto : bool)
    (T_y T_loc T_scale : arg_type) (y mu sigma : T) (P : Policy T)
    (r : string -> report T),
    (forall function, first_failure function y mu sigma = Some (r function)) ->
    cauchy_log propto T_y T_loc T_scale y mu sigma P
    = early_return P (r cauchy_log_function)
    /\ cauchy_p y mu sigma P = early_return P (r cauchy_p_function)).
  { intros T S propto T_y T_loc T_scale y mu sigma P r Hr.
    rewrite cauchy_log_pipeline, cauchy_p_pipeline, !Hr. split; reflexivity. }
  split; [ | split ].
  - intros T S propto T_y T_loc T_scale y mu sigma P density cdf stopped_by.
    subst density cdf stopped_by.
    split; [ | split; [ | split; [ | split ] ] ].
    + intros Hy.
      apply (Hgen T S) with (r := fun f => Report NotNaN f y _).
      intros f. unfold first_failure. rewrite Hy. reflexivity.
    + intros Hy Hmu.
      apply (Hgen T S) with (r := fun f => Report Finite f mu _).
      intros f. unfold first_failure. rewrite Hy, Hmu. reflexivity.
    + intros Hy Hmu Hsig.
      apply (Hgen T S) with (r := fun f => Report Finite f sigma _).
      intros f. unfold first_failure. rewrite Hy, Hmu, Hsig. reflexivity.
    + intros Hy Hmu Hsig Hpos.
      apply (Hgen T S) with (r := fun f => Report Positive f sigma _).
      intros f. unfold first_failure. rewrite Hy, Hmu, Hsig, Hpos.
      reflexivity.
    + intros Hbad S' Hsame.
      rewrite (@cauchy_log_pipeline T S), (@cauchy_log_pipeline T S').
      rewrite (@cauchy_p_pipeline T S), (@cauchy_p_pipeline T S').
      rewrite <- !(first_failure_same_checks S S') by exact Hsame.
      destruct (first_failure_invalid cauchy_log_function y mu sigma Hbad)
        as (r1 & Hr1 & _).
      destruct (first_failure_invalid cauchy_p_function y mu sigma Hbad)
        as (r2 & Hr2 & _).
      rewrite Hr1, Hr2.
      split; apply early_return_same_checks; exact Hsame.
  - intros propto T_y T_loc T_scale P y mu s Hs.
    apply (Hgen xreal _) with (r := fun f => Report Positive f (Fin s) _).
    intros f. unfold first_failure; simpl.
    destruct (Rlt_dec 0 s); [ lra | reflexivity ].
  - intros propto T_y T_loc T_scale P y mu.
    apply (Hgen xreal _) with (r := fun f => Report Finite f NaN _).
    intros f. reflexivity.
Qed.

Lemma C3_checks_in_fixed_order_witness :
  isnan (Fin 1) = false /\ isfinite (Fin 0) = true /\ isfinite NaN = false /\
  cauchy_log false t_double t_double t_double (Fin 1) (Fin 0) NaN nan_policy
  = Returned NaN
      [Report Finite cauchy_log_function NaN "Scale parameter, sigma,"] /\
  cauchy_p (Fin 1) (Fin 0) NaN throwing_policy
  = Failed [Report Finite cauchy_p_function NaN "Scale parameter, sigma,"].
Proof.
  split; [ reflexivity | ].
  split; [ reflexivity | ].
  split; [ reflexivity | ].
  split.
  - destruct (proj1 C3_checks_in_fixed_order xreal xreal_Scalar false
                t_double t_double t_double (Fin 1) (Fin 0) NaN nan_policy)
      as (_ & _ & Hscale & _).
    exact (proj1 (Hscale eq_refl eq_refl eq_refl)).
  - destruct (proj1 C3_checks_in_fixed_order xreal xreal_Scalar false
                t_double t_double t_double (Fin 1) (Fin 0) NaN throwing_policy)
      as (_ & _ & Hscale & _).
    exact (proj2 (Hscale eq_refl eq_refl eq_refl)).
Defined.

(** ** The overloads *)

(** C8. The overloads agree with the full entry points: the log density
    without the [propto] argument is the one with [propto = false]; the
    log density and the distribution function without a policy are the
    ones with the default policy; and the log density with neither is the
    one with [propto = false] and the default policy. *)
Theorem C8_overloads_agree
    (T : Type) (S : Scalar T) (default_policy : Policy T)
    (propto : bool) (T_y T_loc T_scale : arg_type) (y mu sigma : T)
    (P : Policy T) :
  cauchy_log_policy T_y T_loc T_scale y mu sigma P
    = cauchy_log false T_y T_loc T_scale y mu sigma P
  /\ cauchy_log_propto default_policy propto T_y T_loc T_scale y mu sigma
    = cauchy_log propto T_y T_loc T_scale y mu sigma default_policy
  /\ cauchy_p_plain default_policy y mu sigma
    = cauchy_p y mu sigma default_policy
  /\ cauchy_log_plain default_policy T_y T_loc T_scale y mu sigma
    = cauchy_log false T_y T_loc T_scale y mu sigma default_policy.
Proof.
  unfold cauchy_log_policy, cauchy_log_propto, cauchy_p_plain,
    cauchy_log_plain.
  repeat split.
Qed.

(** ** The result slot *)

(** C9. The slot handed to the policy is the accumulator, set to 0 before
    the first check.  When a check fails and the policy lets the caller
    continue without writing into the slot, both evaluators return that
    0; when it writes a sentinel, both return the sentinel. *)
Theorem C9_untouched_slot_is_zero
    (T : Type) (S : Scalar T) (propto : bool)
    (T_y T_loc T_scale : arg_type) (y mu sigma : T) (P : Policy T) :
  valid y mu sigma = false ->
  ((forall function x label, P function x label = Soft None) ->
   (exists r, cauchy_log propto T_y T_loc T_scale y mu sigma P
              = Returned lit_zero [r])
   /\ (exists r, cauchy_p y mu sigma P = Returned lit_zero [r]))
  /\ (forall v : T,
        (forall function x label, P function x label = Soft (Some v)) ->
        (exists r, cauchy_log propto T_y T_loc T_scale y mu sigma P
                   = Returned v [r])
        /\ (exists r, cauchy_p y mu sigma P = Returned v [r])).
Proof.
  intros Hbad.
  destruct (first_failure_invalid cauchy_log_function y mu sigma Hbad)
    as (r1 & Hr1 & _).
  destruct (first_failure_invalid cauchy_p_function y mu sigma Hbad)
    as (r2 & Hr2 & _).
  rewrite cauchy_log_pipeline, cauchy_p_pipeline, Hr1, Hr2.
  unfold early_return.
  split.
  - intros HP. rewrite !HP. split; eexists; reflexivity.
  - intros v HP. rewrite !HP. split; eexists; reflexivity.
Qed.

Lemma C9_untouched_slot_is_zero_witness :
  valid (Fin 1) (Fin 0) NInf = false /\
  (forall (function : string) (x : xreal) (label : string),
     @silent_policy xreal function x label = Soft None) /\
  (exists r, cauchy_log false t_double t_double t_double
               (Fin 1) (Fin 0) NInf silent_policy = Returned (Fin 0) [r]) /\
  (exists r, cauchy_p (Fin 1) (Fin 0) NInf silent_policy
             = Returned (Fin 0) [r]).
Proof.
  split; [ reflexivity | ].
  split; [ intros function x label; reflexivity | ].
  apply (proj1 (C9_untouched_slot_is_zero xreal xreal_Scalar false
                  t_double t_double t_double (Fin 1) (Fin 0) NInf
                  silent_policy eq_refl)).
  intros function x label; reflexivity.
Defined.


(** * Further properties of the evaluators *)

(** ** The policy and the checks, for any numeric type *)

Lemma early_return_observed {T : Type} {S : Scalar T}
    (P : Policy T) (r : report T) :
  reports_of (early_return P r) = [r]
  /\ signalled (early_return P r)
     = match P (rp_function r) (rp_value r) (rp_label r) with
       | Hard => true
       | Soft _ => false
       end.
Proof.
  unfold early_return.
  destruct (P _ _ _) as [ | [ v | ] ]; split; reflexivity.
Qed.

Lemma first_failure_complaint {T : Type} {S : Scalar T}
    (f g : string) (y mu sigma : T) :
  option_map complaint (first_failure f y mu sigma)
  = option_map complaint (first_failure g y mu sigma).
Proof.
  unfold first_failure.
  destruct (isnan y), (isfinite mu), (isfinite sigma), (is_positive sigma);
    reflexivity.
Qed.

(** X1. For any numeric type and any policy, each evaluator consults the
    policy at most once, and consults it at all exactly when one of the
    four checks fails. *)
Theorem X1_policy_consulted_once_iff_invalid
    (T : Type) (S : Scalar T) (propto : bool)
    (T_y T_loc T_scale : arg_type) (y mu sigma : T) (P : Policy T) :
  let density := cauchy_log propto T_y T_loc T_scale y mu sigma P in
  let cdf := cauchy_p y mu sigma P in
  length (reports_of density) <= 1
  /\ length (reports_of cdf) <= 1
  /\ (reports_of density = [] <-> valid y mu sigma = true)
  /\ (reports_of cdf = [] <-> valid y mu sigma = true).
Proof.
  intros density cdf. subst density cdf.
  rewrite cauchy_log_pipeline, cauchy_p_pipeline.
  destruct (valid y mu sigma) eqn:Hv.
  - rewrite !first_failure_valid by exact Hv. simpl.
    repeat split; auto.
  - destruct (first_failure_invalid cauchy_log_function y mu sigma Hv)
      as (r1 & Hr1 & _).
    destruct (first_failure_invalid cauchy_p_function y mu sigma Hv)
      as (r2 & Hr2 & _).
    rewrite Hr1, Hr2.
    rewrite (proj1 (early_return_observed P r1)).
    rewrite (proj1 (early_return_observed P r2)).
    simpl. repeat split; auto; discriminate.
Qed.

(** X2. The two evaluators validate alike: on the same arguments their
    policies receive the same complaints (requirement, offending value
    and label), differing only in the function name they carry. *)
Theorem X2_evaluators_validate_alike
    (T : Type) (S : Scalar T) (propto : bool)
    (T_y T_loc T_scale : arg_type) (y mu sigma : T) (P Q : Policy T) :
  map complaint
    (reports_of (cauchy_log propto T_y T_loc T_scale y mu sigma P))
  = map complaint (reports_of (cauchy_p y mu sigma Q))
  /\ Forall (fun r => rp_function r = cauchy_log_function)
       (reports_of (cauchy_log propto T_y T_loc T_scale y mu sigma P))
  /\ Forall (fun r => rp_function r = cauchy_p_function)
       (reports_of (cauchy_p y mu sigma Q)).
Proof.
  rewrite cauchy_log_pipeline, cauchy_p_pipeline.
  pose proof (first_failure_complaint
                cauchy_log_function cauchy_p_function y mu sigma) as Hsame.
  destruct (valid y mu sigma) eqn:Hv.
  - rewrite !first_failure_valid by exact Hv. simpl.
    repeat split; constructor.
  - destruct (first_failure_invalid cauchy_log_function y mu sigma Hv)
      as (r1 & Hr1 & Hf1).
    destruct (first_failure_invalid cauchy_p_function y mu sigma Hv)
      as (r2 & Hr2 & Hf2).
    rewrite Hr1, Hr2 in Hsame. cbn [option_map] in Hsame.
    assert (Hc : complaint r1 = complaint r2) by congruence.
    rewrite Hr1, Hr2.
    rewrite (proj1 (early_return_observed P r1)).
    rewrite (proj1 (early_return_observed Q r2)).
    cbn [map]. rewrite Hc.
    repeat split; repeat constructor; assumption.
Qed.

(** X3. An error is signalled upward only on the policy's word: under a
    policy that never answers [Hard] neither evaluator signals, whatever
    the arguments; under one that always answers [Hard] each evaluator
    signals exactly when a check fails. *)
Theorem X3_signal_only_on_hard_verdict
    (T : Type) (S : Scalar T) (propto : bool)
    (T_y T_loc T_scale : arg_type) (y mu sigma : T) (P : Policy T) :
  ((forall function x label, P function x label <> Hard) ->
   signalled (cauchy_log propto T_y T_loc T_scale y mu sigma P) = false
   /\ signalled (cauchy_p y mu sigma P) = false)
  /\ ((forall function x label, P function x label = Hard) ->
      signalled (cauchy_log propto T_y T_loc T_scale y mu sigma P)
      = negb (valid y mu sigma)
      /\ signalled (cauchy_p y mu sigma P) = negb (valid y mu sigma)).
Proof.
  rewrite cauchy_log_pipeline, cauchy_p_pipeline.
  destruct (valid y mu sigma) eqn:Hv.
  - rewrite !first_failure_valid by exact Hv. simpl.
    split; intros _; split; reflexivity.
  - destruct (first_failure_invalid cauchy_log_function y mu sigma Hv)
      as (r1 & Hr1 & _).
    destruct (first_failure_invalid cauchy_p_function y mu sigma Hv)
      as (r2 & Hr2 & _).
    rewrite Hr1, Hr2.
    rewrite (proj2 (early_return_observed P r1)).
    rewrite (proj2 (early_return_observed P r2)).
    split; intros HP.
    + split.
      * destruct (P (rp_function r1) (rp_value r1) (rp_label r1)) eqn:E;
          [ exfalso; exact (HP _ _ _ E) | reflexivity ].
      * destruct (P (rp_function r2) (rp_value r2) (rp_label r2)) eqn:E;
          [ exfalso; exact (HP _ _ _ E) | reflexivity ].
    + rewrite !HP. split; reflexivity.
Qed.

Lemma X3_signal_only_on_hard_verdict_witness :
  (forall (function : string) (x : xreal) (label : string),
     nan_policy function x label <> Hard) /\
  signalled (cauchy_log false t_double t_double t_double
               NaN (Fin 0) (Fin 1) nan_policy) = false /\
  signalled (cauchy_p NaN (Fin 0) (Fin 1) nan_policy) = false.
Proof.
  assert (Hsoft : forall (function : string) (x : xreal) (label : string),
            nan_policy function x label <> Hard)
    by (intros function x label; discriminate).
  split; [ exact Hsoft | ].
  exact (proj1 (X3_signal_only_on_hard_verdict xreal xreal_Scalar false
                  t_double t_double t_double NaN (Fin 0) (Fin 1) nan_policy)
           Hsoft).
Defined.

(** ** Accepted arguments on the extended reals *)

Open Scope R_scope.

Lemma valid_accepted (y mu sigma : xreal) :
  valid y mu sigma = true <-> accepted y mu sigma.
Proof.
  unfold valid, accepted. split.
  - intros Hv.
    destruct y; simpl in Hv; try discriminate;
      (destruct mu as [ | | | m ]; simpl in Hv; try discriminate;
       destruct sigma as [ | | | s ]; simpl in Hv; try discriminate;
       destruct (Rlt_dec 0 s) as [ Hs | ]; try discriminate;
       split; [ discriminate | exists m, s; auto ]).
  - intros (Hy & m & s & -> & -> & Hs).
    destruct y; try contradiction; simpl;
      (destruct (Rlt_dec 0 s); [ reflexivity | contradiction ]).
Qed.

Lemma cauchy_log_finite (propto : bool) (T_y T_loc T_scale : arg_type)
    (P : Policy xreal) (y mu sigma : R) :
  0 < sigma ->
  cauchy_log propto T_y T_loc T_scale (Fin y) (Fin mu) (Fin sigma) P
  = Returned
      (Fin ((if term_A propto then - ln PI else 0)
            - (if term_B propto T_scale then ln sigma else 0)
            - (if term_C propto T_y T_loc T_scale
               then ln (1 + ((y - mu) / sigma) ^ 2) else 0))) [].
Proof.
  intros Hs.
  rewrite cauchy_log_pipeline, finite_valid by exact Hs.
  rewrite selected_terms_finite by exact Hs. reflexivity.
Qed.

Lemma cdf_formula_infinite (mu sigma : R) :
  cdf_formula PInf (Fin mu) (Fin sigma) = Fin 1
  /\ cdf_formula NInf (Fin mu) (Fin sigma) = Fin 0.
Proof.
  pose proof PI_RGT_0 as Hpi.
  unfold cdf_formula; simpl.
  destruct (Rlt_dec 0 PI); [ | contradiction ].
  simpl. split; f_equal; field; lra.
Qed.

Lemma selected_terms_infinite (a b c : bool) (y : xreal) (mu sigma : R) :
  0 < sigma -> y = PInf \/ y = NInf ->
  selected_terms a b c y (Fin mu) (Fin sigma)
  = if c then NInf
    else Fin ((if a then - ln PI else 0) - (if b then ln sigma else 0)).
Proof.
  intros Hs Hy. unfold selected_terms.
  rewrite log_sigma by exact Hs.
  assert (Hc : log1p (square (div (sub y (Fin mu)) (Fin sigma))) = PInf).
  { destruct Hy as [ -> | -> ]; simpl;
      destruct (Rlt_dec sigma 0); solve [ lra | reflexivity ]. }
  rewrite Hc.
  destruct a, b, c; simpl; try reflexivity; f_equal; ring.
Qed.

(** X4. On the extended reals the evaluators accept exactly the arguments
    with [y] not NaN, [mu] a real number and [sigma] a positive real
    number: then, and only then, they return without consulting the
    policy.  In particular an infinite location or scale is refused, a
    positive infinite scale included. *)
Theorem X4_accepted_arguments
    (propto : bool) (T_y T_loc T_scale : arg_type)
    (y mu sigma : xreal) (P : Policy xreal) :
  (accepted y mu sigma <->
   reports_of (cauchy_log propto T_y T_loc T_scale y mu sigma P) = [])
  /\ (accepted y mu sigma <-> reports_of (cauchy_p y mu sigma P) = []).
Proof.
  rewrite <- valid_accepted.
  rewrite cauchy_log_pipeline, cauchy_p_pipeline.
  destruct (valid y mu sigma) eqn:Hv.
  - rewrite !first_failure_valid by exact Hv. simpl.
    split; split; reflexivity.
  - destruct (first_failure_invalid cauchy_log_function y mu sigma Hv)
      as (r1 & Hr1 & _).
    destruct (first_failure_invalid cauchy_p_function y mu sigma Hv)
      as (r2 & Hr2 & _).
    rewrite Hr1, Hr2.
    rewrite (proj1 (early_return_observed P r1)).
    rewrite (proj1 (early_return_observed P r2)).
    split; split; discriminate.
Qed.

(** X5. On the extended reals, whenever the arguments are accepted
    (infinite variates included) the distribution function returns a real
    number of the closed interval from 0 to 1, never NaN and never an
    infinity. *)
Theorem X5_cdf_closed_unit_interval
    (y mu sigma : xreal) (P : Policy xreal) :
  accepted y mu sigma ->
  exists p : R,
    cauchy_p y mu sigma P = Returned (Fin p) [] /\ 0 <= p <= 1.
Proof.
  intros (Hy & m & s & -> & -> & Hs).
  destruct y as [ | | | a ]; [ contradiction | | | ].
  - exists 1. split; [ | lra ].
    rewrite cauchy_p_pipeline.
    assert (Hv : valid PInf (Fin m) (Fin s) = true)
      by (apply valid_accepted; split; [ discriminate | exists m, s; auto ]).
    rewrite first_failure_valid by exact Hv.
    rewrite (proj1 (cdf_formula_infinite m s)). reflexivity.
  - exists 0. split; [ | lra ].
    rewrite cauchy_p_pipeline.
    assert (Hv : valid NInf (Fin m) (Fin s) = true)
      by (apply valid_accepted; split; [ discriminate | exists m, s; auto ]).
    rewrite first_failure_valid by exact Hv.
    rewrite (proj2 (cdf_formula_infinite m s)). reflexivity.
  - eexists. split; [ apply cauchy_p_finite; exact Hs | ].
    pose proof (cdf_in_unit_interval ((a - m) / s)). lra.
Qed.

Lemma X5_cdf_closed_unit_interval_witness :
  accepted NInf (Fin 3) (Fin 2) /\
  exists p : R,
    cauchy_p NInf (Fin 3) (Fin 2) throwing_policy = Returned (Fin p) []
    /\ 0 <= p <= 1.
Proof.
  assert (Hacc : accepted NInf (Fin 3) (Fin 2)).
  { split; [ discriminate | ].
    exists 3, 2. split; [ reflexivity | split; [ reflexivity | lra ] ]. }
  split; [ exact Hacc | ].
  exact (X5_cdf_closed_unit_interval NInf (Fin 3) (Fin 2)
           throwing_policy Hacc).
Defined.

(** X6. On the extended reals, under the policy that writes NaN as the
    sentinel, each evaluator returns NaN exactly when the arguments are
    refused: accepted arguments never produce NaN, in any selective
    mode. *)
Theorem X6_nan_result_iff_refused
    (propto : bool) (T_y T_loc T_scale : arg_type) (y mu sigma : xreal) :
  (value_of (cauchy_log propto T_y T_loc T_scale y mu sigma nan_policy)
   = Some NaN <-> ~ accepted y mu sigma)
  /\ (value_of (cauchy_p y mu sigma nan_policy) = Some NaN
      <-> ~ accepted y mu sigma).
Proof.
  rewrite <- valid_accepted.
  rewrite cauchy_log_pipeline, cauchy_p_pipeline.
  destruct (valid y mu sigma) eqn:Hv.
  - rewrite !first_failure_valid by exact Hv.
    apply valid_accepted in Hv.
    destruct Hv as (Hy & m & s & -> & -> & Hs).
    assert (Hcdf : cdf_formula y (Fin m) (Fin s) <> NaN).
    { destruct y as [ | | | a ]; [ contradiction | | | ].
      - rewrite (proj1 (cdf_formula_infinite m s)). discriminate.
      - rewrite (proj2 (cdf_formula_infinite m s)). discriminate.
      - rewrite cdf_formula_finite by exact Hs. discriminate. }
    assert (Hlp : forall a b c,
              selected_terms a b c y (Fin m) (Fin s) <> NaN).
    { intros a b c. destruct y as [ | | | r ]; [ contradiction | | | ].
      - rewrite selected_terms_infinite by auto.
        destruct c; discriminate.
      - rewrite selected_terms_infinite by auto.
        destruct c; discriminate.
      - rewrite selected_terms_finite by exact Hs. discriminate. }
    simpl. split; split; intros H;
      solve [ exfalso; apply H; reflexivity
            | injection H as H; exfalso;
              first [ exact (Hcdf H) | exact (Hlp _ _ _ H) ] ].
  - destruct (first_failure_invalid cauchy_log_function y mu sigma Hv)
      as (r1 & Hr1 & _).
    destruct (first_failure_invalid cauchy_p_function y mu sigma Hv)
      as (r2 & Hr2 & _).
    rewrite Hr1, Hr2. unfold early_return, nan_policy. simpl.
    split; split; intros; solve [ reflexivity | discriminate ].
Qed.

(** ** Binary64 arithmetic at the special arguments *)

Lemma is_finite_shape (x : float) :
  is_finite x = true -> float_shape (Prim2SF x).
Proof.
  unfold is_finite, is_nan, is_infinity.
  rewrite !eqb_spec, abs_spec.
  change (Prim2SF infinity) with (S754_infinity false).
  destruct (Prim2SF x) as [ s | s | | s m e ]; intros H.
  - constructor.
  - destruct s; discriminate.
  - discriminate.
  - constructor.
Qed.

Lemma is_finite_not_nan (x : float) :
  is_finite x = true -> is_nan x = false.
Proof.
  unfold is_finite. destruct (is_nan x); [ discriminate | reflexivity ].
Qed.

Lemma positive_shape (x : float) :
  is_finite x = true -> (0 <? x)%float = true ->
  exists m e, Prim2SF x = S754_finite false m e.
Proof.
  intros Hx. rewrite ltb_spec.
  change (Prim2SF 0) with (S754_zero false).
  destruct (is_finite_shape x Hx) as [ s | s m e ]; intros Hpos.
  - discriminate.
  - destruct s; [ discriminate | eauto ].
Qed.

Lemma float_sub_diag (y : float) :
  is_finite y = true -> (y - y)%float = 0%float.
Proof.
  intros Hy. apply Prim2SF_inj. rewrite sub_spec.
  change (Prim2SF 0) with (S754_zero false).
  destruct (is_finite_shape y Hy) as [ s | s m e ].
  - destruct s; reflexivity.
  - unfold SF64sub, SFsub. rewrite Z.sub_diag. reflexivity.
Qed.

Lemma float_sub_zero (x : float) : (x - 0)%float = x.
Proof.
  apply Prim2SF_inj. rewrite sub_spec.
  change (Prim2SF 0) with (S754_zero false).
  destruct (Prim2SF x) as [ s | s | | s m e ]; try reflexivity.
  destruct s; reflexivity.
Qed.

Lemma float_sub_infinity (mu : float) :
  is_finite mu = true ->
  (infinity - mu)%float = infinity
  /\ (neg_infinity - mu)%float = neg_infinity.
Proof.
  intros Hmu. split; apply Prim2SF_inj; rewrite sub_spec.
  - change (Prim2SF infinity) with (S754_infinity false).
    destruct (is_finite_shape mu Hmu); reflexivity.
  - change (Prim2SF neg_infinity) with (S754_infinity true).
    destruct (is_finite_shape mu Hmu); reflexivity.
Qed.

Lemma float_div_zero (x : float) :
  is_finite x = true -> (0 <? x)%float = true -> (0 / x)%float = 0%float.
Proof.
  intros Hx Hpos. apply Prim2SF_inj. rewrite div_spec.
  destruct (positive_shape x Hx Hpos) as (m & e & ->).
  reflexivity.
Qed.

Lemma binary64_valid (m : libm) (y mu sigma : float) :
  is_nan y = false -> is_finite mu = true ->
  is_finite sigma = true -> (0 <? sigma)%float = true ->
  @valid float (binary64 m) y mu sigma = true.
Proof.
  intros Hy Hmu Hsigma Hpos. unfold valid. simpl.
  rewrite Hy, Hmu, Hsigma, Hpos. reflexivity.
Qed.

Lemma binary64_atan2_zero (m : libm) (sigma : float) :
  is_finite sigma = true -> (0 <? sigma)%float = true ->
  Binary64.atan2_64 m 0 sigma = 0%float.
Proof.
  intros Hs Hpos. unfold Binary64.atan2_64.
  rewrite (is_finite_not_nan sigma Hs), Hpos. reflexivity.
Qed.

Lemma binary64_atan2_infinity (m : libm) (sigma : float) :
  is_finite sigma = true ->
  Binary64.atan2_64 m infinity sigma = Binary64.half_pi64
  /\ Binary64.atan2_64 m neg_infinity sigma = (- Binary64.half_pi64)%float.
Proof.
  intros Hs. unfold Binary64.atan2_64.
  rewrite (is_finite_not_nan sigma Hs), Hs. split; reflexivity.
Qed.

Lemma binary64_log_density_at_location (m : libm)
    (T_y T_loc T_scale : arg_type) (P : Policy float) (y sigma : float) :
  is_finite y = true -> is_finite sigma = true ->
  (0 <? sigma)%float = true ->
  @cauchy_log float (binary64 m) false T_y T_loc T_scale y y sigma P
  = Returned (Binary64.neg_log_pi64 - Binary64.log64 m sigma)%float [].
Proof.
  intros Hy Hs Hpos.
  rewrite cauchy_log_pipeline.
  rewrite first_failure_valid
    by (apply binary64_valid; auto using is_finite_not_nan).
  unfold selected_terms. simpl.
  rewrite float_sub_diag by exact Hy.
  rewrite float_div_zero by assumption.
  change (Binary64.log1p64 m (0 * 0)%float) with 0%float.
  rewrite float_sub_zero. reflexivity.
Qed.

(** ** Signs in binary64 arithmetic *)

Lemma binary_round_aux_opp (s : bool) (m e : Z) (l : location) :
  SFopp (binary_round_aux prec emax s m e l)
  = binary_round_aux prec emax (negb s) m e l.
Proof.
  unfold binary_round_aux.
  destruct (shr_fexp prec emax m e l) as (mrs', e').
  destruct (shr_fexp prec emax _ e' loc_Exact) as (mrs'', e'').
  destruct (shr_m mrs''); try reflexivity.
  destruct (Z.leb e'' (emax - prec)); reflexivity.
Qed.

Lemma SFdiv_opp_l (x y : spec_float) :
  SF64div (SFopp x) y = SFopp (SF64div x y).
Proof.
  destruct x as [ sx | sx | | sx mx ex ], y as [ sy | sy | | sy my ey ];
    try reflexivity;
    try (destruct sx, sy; reflexivity).
  unfold SF64div, SFdiv. cbn [SFopp].
  destruct (SFdiv_core_binary prec emax (Z.pos mx) ex (Z.pos my) ey)
    as ((mz & ez) & lz).
  rewrite binary_round_aux_opp.
  destruct sx, sy; reflexivity.
Qed.

Lemma SFmul_opp_opp (x : spec_float) :
  SF64mul (SFopp x) (SFopp x) = SF64mul x x.
Proof.
  destruct x as [ s | s | | s m e ]; try reflexivity;
    destruct s; reflexivity.
Qed.

Lemma float_div_opp_l (a b : float) : (- a / b)%float = (- (a / b))%float.
Proof.
  apply Prim2SF_inj.
  rewrite div_spec, !opp_spec, div_spec. apply SFdiv_opp_l.
Qed.

Lemma float_square_opp (a : float) : (- a * - a)%float = (a * a)%float.
Proof.
  apply Prim2SF_inj.
  rewrite !mul_spec, !opp_spec. apply SFmul_opp_opp.
Qed.

(** ** Values in binary64: rounding and overflow *)

Lemma neg_log_pi64_value :
  Binary64.real_of_float Binary64.neg_log_pi64
  = (- (5155405087351229 / 4503599627370496))%R.
Proof.
  unfold Binary64.real_of_float.
  change (Prim2SF Binary64.neg_log_pi64)
    with (S754_finite true 5155405087351229 (-52)).
  unfold powerRZ. simpl. lra.
Qed.

(** C1. When the three arguments are passed at the promoted type and all
    checks pass, the full log density ([propto = false]) returns
    [NEG_LOG_PI - log(sigma) - log1p(square((y - mu) / sigma))] as that
    type's arithmetic evaluates it, and calls no policy.  In binary64,
    with any library, it returns [NEG_LOG_PI - log(sigma)] at [y = mu] for
    finite [y] and finite [sigma > 0], and [NEG_LOG_PI] at
    [(0.0, 0.0, 1.0)]; that double is [-1.1447298858494002] to 15
    decimals, and [-log(pi)] is within [1e-7] of the same number. *)
Theorem C1_log_density_in_promoted_arithmetic :
  (forall (T : Type) (S : Scalar T) (T_y T_loc T_scale : arg_type)
          (y mu sigma : T) (P : Policy T),
     valid y mu sigma = true ->
     cauchy_log false T_y T_loc T_scale y mu sigma P
     = Returned
         (sub (sub (add lit_zero NEG_LOG_PI) (log sigma))
              (log1p (square (div (sub y mu) sigma)))) [])
  /\ (forall (m : libm) (T_y T_loc T_scale : arg_type) (P : Policy float)
             (y sigma : float),
        is_finite y = true -> is_finite sigma = true ->
        (0 <? sigma)%float = true ->
        @cauchy_log float (binary64 m) false T_y T_loc T_scale y y sigma P
        = Returned (Binary64.neg_log_pi64 - Binary64.log64 m sigma)%float [])
  /\ (forall (m : libm) (T_y T_loc T_scale : arg_type) (P : Policy float),
        @cauchy_log float (binary64 m) false T_y T_loc T_scale
          0%float 0%float 1%float P
        = Returned Binary64.neg_log_pi64 [])
  /\ (Rabs (Binary64.real_of_float Binary64.neg_log_pi64
            - (-1.1447298858494002)) < 1 / 1000000000000000)%R
  /\ (Rabs (- ln PI - (-1.1447298858494002)) < 1 / 10000000)%R.
Proof.
  split; [ | split; [ | split; [ | split ] ] ].
  - intros T S T_y T_loc T_scale y mu sigma P Hv.
    rewrite cauchy_log_pipeline, first_failure_valid by exact Hv.
    reflexivity.
  - intros m T_y T_loc T_scale P y sigma Hy Hs Hpos.
    apply binary64_log_density_at_location; assumption.
  - intros m T_y T_loc T_scale P. vm_compute. reflexivity.
  - rewrite neg_log_pi64_value. apply Rabs_def1; lra.
  - pose proof log_pi_enclosure. apply Rabs_def1; lra.
Qed.

Lemma C1_log_density_in_promoted_arithmetic_witness :
  is_finite 3%float = true /\ is_finite 2%float = true /\
  (0 <? 2)%float = true /\
  forall (m : libm) (P : Policy float),
    @cauchy_log float (binary64 m) false t_double t_double t_double
      3%float 3%float 2%float P
    = Returned (Binary64.neg_log_pi64 - Binary64.log64 m 2)%float [].
Proof.
  split; [ reflexivity | ].
  split; [ reflexivity | ].
  split; [ reflexivity | ].
  intros m P.
  exact (proj1 (proj2 C1_log_density_in_promoted_arithmetic)
           m t_double t_double t_double P 3%float 2%float
           eq_refl eq_refl eq_refl).
Defined.

(** C1, counterexample to the formula over the reals.  In binary64, at the
    finite arguments [y = 2^520], [mu = 0], [sigma = 1], the square
    overflows and the full log density is minus infinity, with any
    library, whereas the formula evaluated exactly is a real number. *)
Lemma C1_square_overflow_counterexample :
  exists y mu sigma : float,
    is_finite y = true /\ is_finite mu = true /\ is_finite sigma = true
    /\ (0 <? sigma)%float = true
    /\ (forall (m : libm) (T_y T_loc T_scale : arg_type) (P : Policy float),
          @cauchy_log float (binary64 m) false T_y T_loc T_scale y mu sigma P
          = Returned neg_infinity [])
    /\ is_finite neg_infinity = false
    /\ (forall (T_y T_loc T_scale : arg_type) (P : Policy xreal),
          exists v : R,
            cauchy_log false T_y T_loc T_scale
              (Fin (2 ^ 520)) (Fin 0) (Fin 1) P = Returned (Fin v) []).
Proof.
  exists 0x1p520%float, 0%float, 1%float.
  split; [ reflexivity | ].
  split; [ reflexivity | ].
  split; [ reflexivity | ].
  split; [ reflexivity | ].
  split; [ intros m T_y T_loc T_scale P; vm_compute; reflexivity | ].
  split; [ reflexivity | ].
  intros T_y T_loc T_scale P. eexists.
  apply cauchy_log_finite. lra.
Qed.

(** C4. When all checks pass, the log density is the sum of the selected
    terms: [-log(pi)] is dropped exactly when [propto] is on,
    [-log(sigma)] exactly when [propto] is on and the scale is not active,
    and [-log1p(square((y - mu) / sigma))] exactly when [propto] is on and
    no argument is active; with [propto] on and no active argument the
    result is 0.  Consequently, with only the variate active, the full
    value is [NEG_LOG_PI - log(sigma) - c] and the selective value is
    [0 - c] for one and the same term [c] computed from [y]: the dropped
    terms are computed without [y]. *)
Theorem C4_selective_terms_and_shared_term :
  (forall (T : Type) (S : Scalar T) (propto : bool)
          (T_y T_loc T_scale : arg_type) (y mu sigma : T) (P : Policy T),
     valid y mu sigma = true ->
     cauchy_log propto T_y T_loc T_scale y mu sigma P
     = Returned
         (selected_terms
            (negb propto)
            (negb (propto && is_constant T_scale))
            (negb (propto && is_constant T_y && is_constant T_loc
                   && is_constant T_scale))
            y mu sigma) []
     /\ cauchy_log true t_double t_double t_double y mu sigma P
        = Returned lit_zero [])
  /\ (forall (T : Type) (S : Scalar T) (y mu sigma : T) (P : Policy T),
        valid y mu sigma = true ->
        let c := log1p (square (div (sub y mu) sigma)) in
        cauchy_log false t_var t_double t_double y mu sigma P
        = Returned (sub (sub (add lit_zero NEG_LOG_PI) (log sigma)) c) []
        /\ cauchy_log true t_var t_double t_double y mu sigma P
           = Returned (sub lit_zero c) []).
Proof.
  split.
  - intros T S propto T_y T_loc T_scale y mu sigma P Hv. split.
    + rewrite cauchy_log_pipeline, first_failure_valid by exact Hv.
      reflexivity.
    + rewrite cauchy_log_pipeline, first_failure_valid by exact Hv.
      reflexivity.
  - intros T S y mu sigma P Hv c. subst c. split.
    + rewrite cauchy_log_pipeline, first_failure_valid by exact Hv.
      reflexivity.
    + rewrite cauchy_log_pipeline, first_failure_valid by exact Hv.
      reflexivity.
Qed.

Lemma C4_selective_terms_and_shared_term_witness :
  valid (Fin 2) (Fin 1) (Fin 1) = true /\
  cauchy_log true t_double t_double t_double (Fin 2) (Fin 1) (Fin 1)
    throwing_policy
  = Returned (Fin 0) [].
Proof.
  assert (Hv : valid (Fin 2) (Fin 1) (Fin 1) = true).
  { unfold valid; simpl. destruct (Rlt_dec 0 1); [ reflexivity | lra ]. }
  split; [ exact Hv | ].
  exact (proj2 (proj1 C4_selective_terms_and_shared_term xreal xreal_Scalar
                  true t_double t_double t_double (Fin 2) (Fin 1) (Fin 1)
                  throwing_policy Hv)).
Defined.

(** C4, counterexample to the constant difference.  In binary64, with only
    the variate active, [mu = 0] and [sigma = 1], the full value minus the
    selective value is [NEG_LOG_PI] at [y = 0] but NaN at [y = 2^520],
    where both values are minus infinity, with any library. *)
Lemma C4_difference_counterexample :
  exists y1 y2 mu sigma : float,
    is_finite y1 = true /\ is_finite y2 = true /\ is_finite mu = true
    /\ is_finite sigma = true /\ (0 <? sigma)%float = true
    /\ forall (m : libm) (P : Policy float),
         exists full1 selective1 full2 selective2 : float,
           @cauchy_log float (binary64 m) false t_var t_double t_double
             y1 mu sigma P = Returned full1 []
           /\ @cauchy_log float (binary64 m) true t_var t_double t_double
                y1 mu sigma P = Returned selective1 []
           /\ @cauchy_log float (binary64 m) false t_var t_double t_double
                y2 mu sigma P = Returned full2 []
           /\ @cauchy_log float (binary64 m) true t_var t_double t_double
                y2 mu sigma P = Returned selective2 []
           /\ (full1 - selective1)%float = Binary64.neg_log_pi64
           /\ is_nan (full2 - selective2)%float = true.
Proof.
  exists 0%float, 0x1p520%float, 0%float, 1%float.
  split; [ reflexivity | ].
  split; [ reflexivity | ].
  split; [ reflexivity | ].
  split; [ reflexivity | ].
  split; [ reflexivity | ].
  intros m P.
  exists Binary64.neg_log_pi64, 0%float, neg_infinity, neg_infinity.
  split; [ vm_compute; reflexivity | ].
  split; [ vm_compute; reflexivity | ].
  split; [ vm_compute; reflexivity | ].
  split; [ vm_compute; reflexivity | ].
  split; vm_compute; reflexivity.
Qed.










(** ** Order properties that survive rounding *)





(** ** Symmetry of the log density in binary64 *)

(** X8. In binary64, with any library and in every selective mode, the
    log density depends on the sign of the computed difference [y - mu]
    in no way: two variates, neither NaN, whose computed differences from
    [mu] are opposite doubles give the same result, overflow included.
    In particular, at location 0 it returns the same at [-d] and at
    [d]. *)
Theorem X8_binary64_log_density_even_in_difference :
  (forall (m : libm) (propto : bool) (T_y T_loc T_scale : arg_type)
          (P : Policy float) (y1 y2 mu sigma : float),
     is_nan y1 = false -> is_nan y2 = false ->
     (y1 - mu)%float = (- (y2 - mu))%float ->
     @cauchy_log float (binary64 m) propto T_y T_loc T_scale y1 mu sigma P
     = @cauchy_log float (binary64 m) propto T_y T_loc T_scale y2 mu sigma P)
  /\ (forall (m : libm) (propto : bool) (T_y T_loc T_scale : arg_type)
             (P : Policy float) (d sigma : float),
        is_nan d = false ->
        @cauchy_log float (binary64 m) propto T_y T_loc T_scale
          (- d)%float 0%float sigma P
        = @cauchy_log float (binary64 m) propto T_y T_loc T_scale
            d 0%float sigma P).
Proof.
  assert (Hgen : forall (m : libm) (propto : bool)
    (T_y T_loc T_scale : arg_type) (P : Policy float)
    (y1 y2 mu sigma : float),
    is_nan y1 = false -> is_nan y2 = false ->
    (y1 - mu)%float = (- (y2 - mu))%float ->
    @cauchy_log float (binary64 m) propto T_y T_loc T_scale y1 mu sigma P
    = @cauchy_log float (binary64 m) propto T_y T_loc T_scale y2 mu sigma P).
  { intros m propto T_y T_loc T_scale P y1 y2 mu sigma H1 H2 Hd.
    rewrite !cauchy_log_pipeline.
    unfold first_failure, selected_terms. simpl.
    rewrite H1, H2, Hd, float_div_opp_l, float_square_opp. reflexivity. }
  split; [ exact Hgen | ].
  intros m propto T_y T_loc T_scale P d sigma Hd.
  apply Hgen.
  - unfold is_nan in *. rewrite eqb_spec, opp_spec in *.
    destruct (Prim2SF d) as [ s | s | | s e ]; try discriminate;
      try reflexivity.
    + destruct s; reflexivity.
    + assert (Hrefl : forall x, x <> S754_nan -> SFeqb x x = true).
      { intros [ s' | s' | | s' m' e' ] Hx; try reflexivity.
        - destruct s'; reflexivity.
        - contradiction.
        - unfold SFeqb, SFcompare.
          destruct s'; rewrite Z.compare_refl, Pos.compare_cont_refl;
            reflexivity. }
      cbn [SFopp]. rewrite Hrefl by discriminate. reflexivity.
  - exact Hd.
  - rewrite !float_sub_zero. reflexivity.
Qed.

Lemma X8_binary64_log_density_even_in_difference_witness :
  is_nan 0x1p520%float = false /\
  forall (m : libm) (P : Policy float),
    @cauchy_log float (binary64 m) false t_double t_double t_double
      (- 0x1p520)%float 0%float 1%float P
    = @cauchy_log float (binary64 m) false t_double t_double t_double
        0x1p520%float 0%float 1%float P.
Proof.
  split; [ reflexivity | ].
  intros m P.
  exact (proj2 X8_binary64_log_density_even_in_difference m false
           t_double t_double t_double P 0x1p520%float 1%float eq_refl).
Defined.

(** ** Further properties in binary64 and with integer arguments *)

(** X17. In binary64, with any library, the distribution function returns
    exactly 0.5 at [y = mu], for every finite [y] and every finite
    [sigma > 0]. *)
Theorem X17_binary64_cdf_half_at_location
    (m : libm) (P : Policy float) (y sigma : float) :
  is_finite y = true -> is_finite sigma = true ->
  (0 <? sigma)%float = true ->
  @cauchy_p float (binary64 m) y y sigma P = Returned 0.5%float [].
Proof.
  intros Hy Hs Hpos.
  rewrite cauchy_p_pipeline.
  rewrite first_failure_valid
    by (apply binary64_valid; auto using is_finite_not_nan).
  unfold cdf_formula. simpl.
  rewrite float_sub_diag by exact Hy.
  rewrite binary64_atan2_zero by assumption.
  reflexivity.
Qed.

Lemma X17_binary64_cdf_half_at_location_witness :
  is_finite 3%float = true /\ is_finite 0.125%float = true /\
  (0 <? 0.125)%float = true /\
  forall (m : libm) (P : Policy float),
    @cauchy_p float (binary64 m) 3%float 3%float 0.125%float P
    = Returned 0.5%float [].
Proof.
  split; [ reflexivity | ].
  split; [ reflexivity | ].
  split; [ reflexivity | ].
  intros m P.
  exact (X17_binary64_cdf_half_at_location m P 3%float 0.125%float
           eq_refl eq_refl eq_refl).
Defined.

(** X18. In binary64, with any library, an infinite variate gives the ends
    of the unit interval exactly: for every finite [mu] and every finite
    [sigma > 0] the distribution function returns 1 at plus infinity and
    0 at minus infinity. *)
Theorem X18_binary64_cdf_at_infinite_variate
    (m : libm) (P : Policy float) (mu sigma : float) :
  is_finite mu = true -> is_finite sigma = true ->
  (0 <? sigma)%float = true ->
  @cauchy_p float (binary64 m) infinity mu sigma P = Returned 1%float []
  /\ @cauchy_p float (binary64 m) neg_infinity mu sigma P
     = Returned 0%float [].
Proof.
  intros Hmu Hs Hpos.
  rewrite !cauchy_p_pipeline.
  rewrite !first_failure_valid by (apply binary64_valid; auto).
  unfold cdf_formula. simpl.
  destruct (float_sub_infinity mu Hmu) as (-> & ->).
  destruct (binary64_atan2_infinity m sigma Hs) as (-> & ->).
  split; reflexivity.
Qed.

Lemma X18_binary64_cdf_at_infinite_variate_witness :
  is_finite 7%float = true /\ is_finite 0.125%float = true /\
  (0 <? 0.125)%float = true /\
  forall (m : libm) (P : Policy float),
    @cauchy_p float (binary64 m) infinity 7%float 0.125%float P
    = Returned 1%float []
    /\ @cauchy_p float (binary64 m) neg_infinity 7%float 0.125%float P
       = Returned 0%float [].
Proof.
  split; [ reflexivity | ].
  split; [ reflexivity | ].
  split; [ reflexivity | ].
  intros m P.
  exact (X18_binary64_cdf_at_infinite_variate m P 7%float 0.125%float
           eq_refl eq_refl eq_refl).
Defined.

Lemma quot_small_abs (a b : Z) : (Z.abs a < b)%Z -> Z.quot a b = 0%Z.
Proof.
  intros Hab.
  destruct (Z.le_gt_cases 0 a) as [ Ha | Ha ].
  - apply Z.quot_small. rewrite Z.abs_eq in Hab by exact Ha. lia.
  - rewrite Z.abs_neq in Hab by lia.
    replace a with (- (- a))%Z by lia.
    rewrite Z.quot_opp_l by lia.
    rewrite Z.quot_small by lia. reflexivity.
Qed.

(** X19. With int arguments the standardised variate is an integer
    quotient: whenever the checks pass and [|y - mu| < sigma] the full
    log density is [NEG_LOG_PI - log(sigma) - log1p(0)], whatever [y] is;
    in binary64 the call with [(1, 0, 2)] returns what the call with
    [(0, 0, 2)] returns. *)
Theorem X19_int_arguments_truncate_the_quotient :
  (forall (T : Type) (S : Scalar T) (F : FromInt T)
          (y mu sigma : Z) (P : Policy T),
     valid (of_int y) (of_int mu) (of_int sigma) = true ->
     in_int (y - mu) = true ->
     (Z.abs (y - mu) < sigma)%Z ->
     cauchy_log_int y mu sigma P
     = Some (Returned
               (sub (sub (add lit_zero NEG_LOG_PI) (log (of_int sigma)))
                    (log1p (of_int 0))) []))
  /\ (forall (m : libm) (P : Policy float),
        @cauchy_log_int float (binary64 m) binary64_FromInt 1 0 2 P
        = @cauchy_log_int float (binary64 m) binary64_FromInt 0 0 2 P).
Proof.
  split.
  - intros T S F y mu sigma P Hv Hrange Hsmall.
    unfold cauchy_log_int. rewrite Hv.
    unfold int_standardised_square.
    assert (Hsigma : (sigma =? 0)%Z = false) by (apply Z.eqb_neq; lia).
    rewrite Hsigma, Hrange, quot_small_abs by exact Hsmall.
    cbn [Z.mul in_int].
    change (in_int 0) with true. cbv iota.
    unfold valid in Hv.
    destruct (isnan (of_int y)) eqn:Hy; [ discriminate | ].
    destruct (isfinite (of_int mu)) eqn:Hmu; [ | discriminate ].
    destruct (isfinite (of_int sigma)) eqn:Hs; [ | discriminate ].
    destruct (is_positive (of_int sigma)) eqn:Hp; [ | discriminate ].
    unfold run, bind, check_not_nan, check_finite, check_positive, ret,
      update_lp, get_lp.
    rewrite Hy, Hmu, Hs, Hp. reflexivity.
  - intros m P. vm_compute. reflexivity.
Qed.

Lemma X19_int_arguments_truncate_the_quotient_witness :
  (forall m : libm,
     @valid float (binary64 m) (of_int 1) (of_int 0) (of_int 2) = true) /\
  in_int (1 - 0) = true /\
  (Z.abs (1 - 0) < 2)%Z /\
  forall (m : libm) (P : Policy float),
    @cauchy_log_int float (binary64 m) binary64_FromInt 1 0 2 P
    = Some (Returned
              (@sub float (binary64 m)
                 (@sub float (binary64 m)
                    (@add float (binary64 m) 0%float Binary64.neg_log_pi64)
                    (Binary64.log64 m (of_int 2)))
                 (Binary64.log1p64 m (of_int 0))) []).
Proof.
  assert (Hv : forall m : libm,
            @valid float (binary64 m) (of_int 1) (of_int 0) (of_int 2) = true)
    by (intros m; reflexivity).
  assert (Hr : in_int (1 - 0) = true) by reflexivity.
  assert (Hs : (Z.abs (1 - 0) < 2)%Z) by reflexivity.
  split; [ exact Hv | split; [ exact Hr | split; [ exact Hs | ] ] ].
  intros m P.
  exact (proj1 X19_int_arguments_truncate_the_quotient float (binary64 m)
           binary64_FromInt 1%Z 0%Z 2%Z P (Hv m) Hr Hs).
Defined.

